(** * alpine-lift: the alpine-data configuration model (pkg/lift/data.go)

    A shallow embedding of the configuration schema, of the scalar-or-list
    decoding hook [MultiString.UnmarshalYAML], of the defaults
    [InitAlpineData] and of the sshd key/value view [getSSHDKVMap],
    followed by the properties the specification states about them.

    Conventions of the embedding:
    - a Go [string] is a [string]; a Go [int] is a [Z] (no arithmetic is
      performed on it in this file, so no wrap-around can occur);
    - a Go slice [[]T] is a [list T]: the zero value of a slice is the list
      of length 0, which the specification calls the empty list;
    - a Go pointer [*T] to a struct is an [option T], [None] being [nil];
      no struct of this file is shared between two owners;
    - a Go [map[string]string] is a [gmap string string];
    - a Go [error] result is an [option error], [None] being [nil]. *)

From Stdlib Require Import ZArith DecimalString.
From Stdlib Require DecimalZ DecimalPos.
From stdpp Require Import gmap strings list fin_maps.

#[local] Set Warnings "-register-all".
#[local] Open Scope Z_scope.

(** ** Errors and decode results *)

(** The only error of this package: a source value that does not have the
    shape of the Go type it is decoded into. [into] names that Go type. *)
Inductive error :=
| DecodeError (into : string).

Inductive result (A : Type) :=
| Ok (a : A)
| Err (e : error).
Arguments Ok {A} a.
Arguments Err {A} e.

#[global] Instance result_ret : MRet result := fun A a => Ok a.
#[global] Instance result_bind : MBind result := fun A B f r =>
  match r with
  | Ok a => f a
  | Err e => Err e
  end.
#[global] Instance result_fmap : FMap result := fun A B f r =>
  match r with
  | Ok a => Ok (f a)
  | Err e => Err e
  end.


(** ** The schema *)

(** MultiString is a type alias, needed for unmarshalling. *)
Definition MultiString : Type := list string.

Module User.
Record t := mk {
  Name : string;
  Description : string;
  HomeDir : string;
  Shell : string;
  NoCreateHomeDir : bool;
  PrimaryGroup : string;
  Groups : MultiString;
  System : bool;
  SSHAuthorizedKeys : list string;
  Password : string;
}.
Definition zero : t := mk "" "" "" "" false "" [] false [] "".
End User.

Module SSHD.
Record t := mk {
  Port : Z;
  ListenAddress : string;
  AuthorizedKeys : list string;
  PermitRootLogin : bool;
  PermitEmptyPasswords : bool;
  PasswordAuthentication : bool;
}.
Definition zero : t := mk 0 "" [] false false false.
End SSHD.

Module DRProvision.
Record t := mk {
  InstallRunner : bool;
  AssetsURL : string;
  Token : string;
  Endpoint : string;
  UUID : string;
}.
Definition zero : t := mk false "" "" "" "".
End DRProvision.

Module ResolvConfiguration.
Record t := mk {
  NameServers : MultiString;
  SearchDomains : MultiString;
  Domain : string;
}.
Definition zero : t := mk [] [] "".
End ResolvConfiguration.

Module NTPConfiguration.
Record t := mk {
  Pools : MultiString;
  Servers : MultiString;
}.
Definition zero : t := mk [] [].
End NTPConfiguration.

Module NetworkSettings.
Record t := mk {
  HostName : string;
  InterfaceOpts : string;
  ResolvConf : option ResolvConfiguration.t;
  Proxy : string;
  NTP : option NTPConfiguration.t;
}.
Definition zero : t := mk "" "" None "" None.
End NetworkSettings.

Module MTAConfiguration.
Record t := mk {
  Root : string;
  Server : string;
  UseTLS : bool;
  UseSTARTTLS : bool;
  User : string;
  Password : string;
  AuthMethod : string;
  RewriteDomain : string;
  FromLineOverride : bool;
}.
Definition zero : t := mk "" "" false false "" "" "" "" false.
End MTAConfiguration.

Module PackagesConfig.
Record t := mk {
  Repositories : MultiString;
  Update : bool;
  Upgrade : bool;
  Install : MultiString;
  Uninstall : MultiString;
}.
Definition zero : t := mk [] false false [] [].
End PackagesConfig.

Module WriteFile.
Record t := mk {
  Encoding : string;
  Content : string;
  ContentURL : string;
  Path : string;
  Owner : string;
  Permissions : string;
}.
Definition zero : t := mk "" "" "" "" "" "".
End WriteFile.

Module Disk.
Record t := mk {
  Device : string;
  FileSystemType : string;
  MountPoint : string;
}.
Definition zero : t := mk "" "" "".
End Disk.

Module AlpineData.
Record t := mk {
  RootPasswd : string;
  MOTD : string;
  Network : option NetworkSettings.t;
  Packages : option PackagesConfig.t;
  DRP : option DRProvision.t;
  SSHDConfig : option SSHD.t;
  Groups : MultiString;
  Users : list User.t;
  RunCMD : list MultiString;
  WriteFiles : list WriteFile.t;
  TimeZone : string;
  Keymap : string;
  UnLift : bool;
  ScratchDisk : string;
  Disks : list Disk.t;
  MTA : option MTAConfiguration.t;
}.
Definition zero : t :=
  mk "" "" None None None None [] [] [] [] "" "" false "" [] None.
End AlpineData.

(** ** MultiString.UnmarshalYAML *)

(** The callback [unmarshal func(interface{}) error] handed to the hook.
    The hook calls it with a [*[]string] and with a [*string]; each entry
    takes the current content of the pointee and returns its content after
    the call together with the error result. One run of the hook makes at
    most one call of each kind, so this describes the callback within a
    run; state that a closure might carry from one run of the hook to the
    next is not modelled. *)
Record Unmarshal := {
  into_strings : list string → list string * option error;
  into_string : string → string * option error;
}.

(** The receiver [*ms] is passed in and returned with the error result. *)
Definition UnmarshalYAML (ms : MultiString) (unmarshal : Unmarshal)
  : MultiString * option error :=
  let '(values, err) := into_strings unmarshal [] in
  match err with
  | Some _ =>
      let '(s, err) := into_string unmarshal "" in
      match err with
      | Some e => (ms, Some e)
      | None => ([s], None)
      end
  | None => (values, None)
  end.

(** ** InitAlpineData *)

Definition InitAlpineData : AlpineData.t := {|
  AlpineData.RootPasswd := "";
  AlpineData.MOTD := "";
  AlpineData.Network := Some {|
    NetworkSettings.HostName := "alpine";
    NetworkSettings.InterfaceOpts := "";
    NetworkSettings.ResolvConf := None;
    NetworkSettings.Proxy := "";
    NetworkSettings.NTP := None;
  |};
  AlpineData.Packages := Some {|
    PackagesConfig.Repositories := [
      "http://dl-cdn.alpinelinux.org/alpine/v3.8/main";
      "http://dl-cdn.alpinelinux.org/alpine/v3.8/community"
    ];
    PackagesConfig.Update := false;
    PackagesConfig.Upgrade := false;
    PackagesConfig.Install := [];
    PackagesConfig.Uninstall := [];
  |};
  AlpineData.DRP := Some {|
    DRProvision.InstallRunner := true;
    DRProvision.AssetsURL := "";
    DRProvision.Token := "";
    DRProvision.Endpoint := "";
    DRProvision.UUID := "";
  |};
  AlpineData.SSHDConfig := Some {|
    SSHD.Port := 22;
    SSHD.ListenAddress := "0.0.0.0";
    SSHD.AuthorizedKeys := [];
    SSHD.PermitRootLogin := true;
    SSHD.PermitEmptyPasswords := false;
    SSHD.PasswordAuthentication := false;
  |};
  AlpineData.Groups := [];
  AlpineData.Users := [];
  AlpineData.RunCMD := [];
  AlpineData.WriteFiles := [];
  AlpineData.TimeZone := "UTC";
  AlpineData.Keymap := "us us";
  AlpineData.UnLift := true;
  AlpineData.ScratchDisk := "";
  AlpineData.Disks := [];
  AlpineData.MTA := None;
|}.

(** ** getSSHDKVMap *)

(** [strconv.Itoa] of the Go standard library: the base-10 rendering of
    an [int], with a leading minus sign for a negative number and [0]
    rendered as the one digit. *)
Definition Itoa (i : Z) : string := NilZero.string_of_int (Z.to_int i).

(** Converts bool values to either "yes" or "no". *)
Definition boolToYesNo (b : bool) : string :=
  if b then "yes" else "no".

(** Modelled from the spec: the receiver type of [getSSHDKVMap], whose
    declaration lives in another file of the package. Section 4.3 gives the
    view one input, the sshd section, which may be absent; the method
    reaches it as [l.Data.SSHDConfig], so [Lift] is modelled by the field
    [Data], the [*AlpineData] that [InitAlpineData] returns. The receiver
    pointer [l] itself is taken to be non-nil. *)
Record Lift := {
  Data : option AlpineData.t;
}.

(** Returns a key-value map with SSH settings from alpine-data. [None] is
    the run-time panic of dereferencing a nil [l.Data] or a nil
    [l.Data.SSHDConfig]. *)
Definition getSSHDKVMap (l : Lift) : option (gmap string string) :=
  d ← Data l;
  c ← AlpineData.SSHDConfig d;
  Some (<["Port" := Itoa (SSHD.Port c)]>
       (<["ListenAddress" := SSHD.ListenAddress c]>
       (<["PermitRootLogin" := boolToYesNo (SSHD.PermitRootLogin c)]>
       (<["PermitEmptyPasswords" := boolToYesNo (SSHD.PermitEmptyPasswords c)]>
       (<["PasswordAuthentication" := boolToYesNo (SSHD.PasswordAuthentication c)]>
        ∅))))).


(** ** Source documents and their decoding

    The serialization library that parses a document and walks the struct
    tags is an external dependency of the package. What follows models
    it from the specification (sections 4.1, 6 and 7), over the struct
    tags and field types declared above. The one place where the model
    leaves the specification's words is the callback that the library hands
    to the hook: there it follows what the library does with scalars. *)

(** Modelled from the spec: a parsed source value, with the shapes the
    specification distinguishes: an explicit null, a string, an integer, a
    boolean, a list, and a mapping from key strings to sources. *)
Inductive node :=
| NNull
| NStr (s : string)
| NInt (z : Z)
| NBool (b : bool)
| NSeq (l : list node)
| NMap (m : gmap string node).



(** What the library stores when it decodes the source into a Go
    [string]. It takes every scalar, not only a string: a number or a
    boolean is stored as its text, an explicit null as the zero value; a
    list or a mapping is refused. A node carries the value of a scalar and
    not its spelling: the text of an integer is taken to be its decimal
    rendering, that of a boolean [true] or [false]. *)
Definition as_string (n : node) : option string :=
  match n with
  | NNull => Some ""
  | NStr s => Some s
  | NInt z => Some (Itoa z)
  | NBool b => Some (if b then "true" else "false")
  | NSeq _ => None
  | NMap _ => None
  end.

(** What the library stores when it decodes the source into a Go
    [[]string]: a list is decoded element by element, each element at type
    [string]; an explicit null gives the zero value; anything else is
    refused. *)
Definition as_strings (n : node) : option (list string) :=
  match n with
  | NNull => Some []
  | NSeq l => mapM as_string l
  | _ => None
  end.



(** The decode callback the library hands to a custom unmarshalling hook,
    for the source [n]. Decoding into a Go type succeeds when the library
    can store the source at that type ([as_strings], [as_string]);
    otherwise it reports a [DecodeError]. *)
Definition unmarshal_node (n : node) : Unmarshal := {|
  into_strings := λ values,
    match as_strings n with
    | Some l => (l, None)
    | None => (values, Some (DecodeError "[]string"))
    end;
  into_string := λ s,
    match as_string n with
    | Some s' => (s', None)
    | None => (s, Some (DecodeError "string"))
    end;
|}.

(** Modelled from the spec: decoding a source at a declared scalar type
    succeeds exactly when the source has that type. *)
Definition decode_string (n : node) : result string :=
  match n with
  | NStr s => Ok s
  | _ => Err (DecodeError "string")
  end.

(** Modelled from the spec: as [decode_string], at type [bool]. *)
Definition decode_bool (n : node) : result bool :=
  match n with
  | NBool b => Ok b
  | _ => Err (DecodeError "bool")
  end.

(** Modelled from the spec: as [decode_string], at type [int]. *)
Definition decode_int (n : node) : result Z :=
  match n with
  | NInt z => Ok z
  | _ => Err (DecodeError "int")
  end.

(** Modelled from the spec: a field whose type carries the hook is decoded
    by running [UnmarshalYAML] on the field's zero value with the callback
    for the field's source; the hook's error is the field's error. (For an
    explicit null the library stores the zero value without running the
    hook; the hook run on a null stores the same.) *)
Definition decode_MultiString (n : node) : result MultiString :=
  match UnmarshalYAML [] (unmarshal_node n) with
  | (ms, None) => Ok ms
  | (_, Some e) => Err e
  end.

(** Modelled from the spec: a slice field takes a list and decodes its
    elements in order; the first failure is the failure of the field. *)
Definition decode_slice {A} (dec : node → result A) (n : node)
  : result (list A) :=
  match n with
  | NSeq l => mapM dec l
  | _ => Err (DecodeError "slice")
  end.

(** Modelled from the spec: a struct takes a mapping. *)
Definition decode_struct {A} (dec : gmap string node → result A) (n : node)
  : result A :=
  match n with
  | NMap m => dec m
  | _ => Err (DecodeError "struct")
  end.

(** Modelled from the spec: a pointer field that the document supplies
    points to a freshly decoded struct. *)
Definition decode_ptr {A} (dec : node → result A) (n : node)
  : result (option A) :=
  Some <$> dec n.

(** Modelled from the spec: a key that is absent from the mapping leaves
    the field at its zero value and runs no decoder; a key that is present
    is decoded at the field's type, and its failure is the struct's. *)
Definition field {A} (m : gmap string node) (key : string) (zero : A)
    (dec : node → result A) : result A :=
  match m !! key with
  | Some n => dec n
  | None => Ok zero
  end.

(** Modelled from the spec: the library decoding a mapping into a fresh
    [User], one field per yaml tag of the struct, in declaration order. *)
Definition decode_User : node → result User.t :=
  decode_struct (λ m,
    Name ← field m "name" "" decode_string;
    Description ← field m "gecos" "" decode_string;
    HomeDir ← field m "homedir" "" decode_string;
    Shell ← field m "shell" "" decode_string;
    NoCreateHomeDir ← field m "no_create_homedir" false decode_bool;
    PrimaryGroup ← field m "primary_group" "" decode_string;
    Groups ← field m "groups" [] decode_MultiString;
    System ← field m "system" false decode_bool;
    SSHAuthorizedKeys ← field m "ssh_authorized_keys" []
                          (decode_slice decode_string);
    Password ← field m "passwd" "" decode_string;
    mret (User.mk Name Description HomeDir Shell NoCreateHomeDir
            PrimaryGroup Groups System SSHAuthorizedKeys Password)).

(** Modelled from the spec: the library decoding a mapping into a fresh
    [SSHD], one field per yaml tag of the struct, in declaration order. *)
Definition decode_SSHD : node → result SSHD.t :=
  decode_struct (λ m,
    Port ← field m "port" 0 decode_int;
    ListenAddress ← field m "listen_address" "" decode_string;
    AuthorizedKeys ← field m "authorized_keys" []
                       (decode_slice decode_string);
    PermitRootLogin ← field m "permit_root_login" false decode_bool;
    PermitEmptyPasswords ← field m "permit_empty_passwords" false decode_bool;
    PasswordAuthentication ← field m "password_authentication" false
                               decode_bool;
    mret (SSHD.mk Port ListenAddress AuthorizedKeys PermitRootLogin
            PermitEmptyPasswords PasswordAuthentication)).

(** Modelled from the spec: the library decoding a mapping into a fresh
    [DRProvision], one field per yaml tag of the struct, in declaration order. *)
Definition decode_DRProvision : node → result DRProvision.t :=
  decode_struct (λ m,
    InstallRunner ← field m "install_runner" false decode_bool;
    AssetsURL ← field m "assets_url" "" decode_string;
    Token ← field m "token" "" decode_string;
    Endpoint ← field m "endpoint" "" decode_string;
    UUID ← field m "uuid" "" decode_string;
    mret (DRProvision.mk InstallRunner AssetsURL Token Endpoint UUID)).

(** Modelled from the spec: the library decoding a mapping into a fresh
    [ResolvConfiguration], one field per yaml tag of the struct, in declaration order. *)
Definition decode_ResolvConfiguration : node → result ResolvConfiguration.t :=
  decode_struct (λ m,
    NameServers ← field m "nameservers" [] decode_MultiString;
    SearchDomains ← field m "search_domains" [] decode_MultiString;
    Domain ← field m "domain" "" decode_string;
    mret (ResolvConfiguration.mk NameServers SearchDomains Domain)).

(** Modelled from the spec: the library decoding a mapping into a fresh
    [NTPConfiguration], one field per yaml tag of the struct, in declaration order. *)
Definition decode_NTPConfiguration : node → result NTPConfiguration.t :=
  decode_struct (λ m,
    Pools ← field m "pools" [] decode_MultiString;
    Servers ← field m "servers" [] decode_MultiString;
    mret (NTPConfiguration.mk Pools Servers)).

(** Modelled from the spec: the library decoding a mapping into a fresh
    [NetworkSettings], one field per yaml tag of the struct, in declaration order. *)
Definition decode_NetworkSettings : node → result NetworkSettings.t :=
  decode_struct (λ m,
    HostName ← field m "hostname" "" decode_string;
    InterfaceOpts ← field m "interfaces" "" decode_string;
    ResolvConf ← field m "resolv_conf" None
                   (decode_ptr decode_ResolvConfiguration);
    Proxy ← field m "proxy" "" decode_string;
    NTP ← field m "ntp" None (decode_ptr decode_NTPConfiguration);
    mret (NetworkSettings.mk HostName InterfaceOpts ResolvConf Proxy NTP)).

(** Modelled from the spec: the library decoding a mapping into a fresh
    [MTAConfiguration], one field per yaml tag of the struct, in declaration order. *)
Definition decode_MTAConfiguration : node → result MTAConfiguration.t :=
  decode_struct (λ m,
    Root ← field m "root" "" decode_string;
    Server ← field m "server" "" decode_string;
    UseTLS ← field m "use_tls" false decode_bool;
    UseSTARTTLS ← field m "use_starttls" false decode_bool;
    User ← field m "user" "" decode_string;
    Password ← field m "password" "" decode_string;
    AuthMethod ← field m "authmethod" "" decode_string;
    RewriteDomain ← field m "rewrite_domain" "" decode_string;
    FromLineOverride ← field m "fromline_override" false decode_bool;
    mret (MTAConfiguration.mk Root Server UseTLS UseSTARTTLS User Password
            AuthMethod RewriteDomain FromLineOverride)).

(** Modelled from the spec: the library decoding a mapping into a fresh
    [PackagesConfig], one field per yaml tag of the struct, in declaration order. *)
Definition decode_PackagesConfig : node → result PackagesConfig.t :=
  decode_struct (λ m,
    Repositories ← field m "repositories" [] decode_MultiString;
    Update ← field m "update" false decode_bool;
    Upgrade ← field m "upgrade" false decode_bool;
    Install ← field m "install" [] decode_MultiString;
    Uninstall ← field m "uninstall" [] decode_MultiString;
    mret (PackagesConfig.mk Repositories Update Upgrade Install Uninstall)).

(** Modelled from the spec: the library decoding a mapping into a fresh
    [WriteFile], one field per yaml tag of the struct, in declaration order. *)
Definition decode_WriteFile : node → result WriteFile.t :=
  decode_struct (λ m,
    Encoding ← field m "encoding" "" decode_string;
    Content ← field m "content" "" decode_string;
    ContentURL ← field m "content-url" "" decode_string;
    Path ← field m "path" "" decode_string;
    Owner ← field m "owner" "" decode_string;
    Permissions ← field m "permissions" "" decode_string;
    mret (WriteFile.mk Encoding Content ContentURL Path Owner Permissions)).

(** Modelled from the spec: the library decoding a mapping into a fresh
    [Disk], one field per yaml tag of the struct, in declaration order. *)
Definition decode_Disk : node → result Disk.t :=
  decode_struct (λ m,
    Device ← field m "device" "" decode_string;
    FileSystemType ← field m "filesystem" "" decode_string;
    MountPoint ← field m "mountpoint" "" decode_string;
    mret (Disk.mk Device FileSystemType MountPoint)).

(** Modelled from the spec: the library decoding a whole document into a
    fresh [AlpineData], one field per yaml tag, in declaration order. *)
Definition decode_AlpineData : node → result AlpineData.t :=
  decode_struct (λ m,
    RootPasswd ← field m "password" "" decode_string;
    MOTD ← field m "motd" "" decode_string;
    Network ← field m "network" None (decode_ptr decode_NetworkSettings);
    Packages ← field m "packages" None (decode_ptr decode_PackagesConfig);
    DRP ← field m "dr_provision" None (decode_ptr decode_DRProvision);
    SSHDConfig ← field m "sshd" None (decode_ptr decode_SSHD);
    Groups ← field m "groups" [] decode_MultiString;
    Users ← field m "users" [] (decode_slice decode_User);
    RunCMD ← field m "runcmd" [] (decode_slice decode_MultiString);
    WriteFiles ← field m "write_files" [] (decode_slice decode_WriteFile);
    TimeZone ← field m "timezone" "" decode_string;
    Keymap ← field m "keymap" "" decode_string;
    UnLift ← field m "unlift" false decode_bool;
    ScratchDisk ← field m "scratch_disk" "" decode_string;
    Disks ← field m "disks" [] (decode_slice decode_Disk);
    MTA ← field m "mta" None (decode_ptr decode_MTAConfiguration);
    mret (AlpineData.mk RootPasswd MOTD Network Packages DRP SSHDConfig
            Groups Users RunCMD WriteFiles TimeZone Keymap UnLift
            ScratchDisk Disks MTA)).

(** The sshd section a [Lift] carries, if any. *)
Definition sshd_section (l : Lift) : option SSHD.t :=
  Data l ≫= AlpineData.SSHDConfig.

(** ** The MultiString-typed fields of the schema

    Every position of the configuration tree whose Go type is
    [MultiString]: the fields so declared in [AlpineData], [User],
    [ResolvConfiguration], [NTPConfiguration] and [PackagesConfig], and the
    elements of [RunCMD]. *)
Inductive place :=
| AlpineData_Groups
| User_Groups (i : nat)
| RunCMD_elem (i : nat)
| ResolvConfiguration_NameServers
| ResolvConfiguration_SearchDomains
| NTPConfiguration_Pools
| NTPConfiguration_Servers
| PackagesConfig_Repositories
| PackagesConfig_Install
| PackagesConfig_Uninstall.

(** The mapping found under [key], if [key] holds a mapping. *)
Definition section_at (m : gmap string node) (key : string)
  : option (gmap string node) :=
  match m !! key with
  | Some (NMap m') => Some m'
  | _ => None
  end.

(** The sequence found under [key], if [key] holds a sequence. *)
Definition sequence_at (m : gmap string node) (key : string)
  : option (list node) :=
  match m !! key with
  | Some (NSeq l) => Some l
  | _ => None
  end.

(** What a document supplies for a place: [None] when the document has no
    struct (or list element) enclosing the place, [Some None] when the
    enclosing struct is there and the field's key is absent from it,
    [Some (Some n)] when the key is present with source [n]. *)
Definition place_source (doc : node) (p : place) : option (option node) :=
  match doc with
  | NMap m =>
      match p with
      | AlpineData_Groups => Some (m !! "groups")
      | User_Groups i =>
          us ← sequence_at m "users";
          u ← us !! i;
          match u with
          | NMap um => Some (um !! "groups")
          | _ => None
          end
      | RunCMD_elem i =>
          cs ← sequence_at m "runcmd";
          c ← cs !! i;
          Some (Some c)
      | ResolvConfiguration_NameServers =>
          nm ← section_at m "network";
          rm ← section_at nm "resolv_conf";
          Some (rm !! "nameservers")
      | ResolvConfiguration_SearchDomains =>
          nm ← section_at m "network";
          rm ← section_at nm "resolv_conf";
          Some (rm !! "search_domains")
      | NTPConfiguration_Pools =>
          nm ← section_at m "network";
          tm ← section_at nm "ntp";
          Some (tm !! "pools")
      | NTPConfiguration_Servers =>
          nm ← section_at m "network";
          tm ← section_at nm "ntp";
          Some (tm !! "servers")
      | PackagesConfig_Repositories =>
          pm ← section_at m "packages";
          Some (pm !! "repositories")
      | PackagesConfig_Install =>
          pm ← section_at m "packages";
          Some (pm !! "install")
      | PackagesConfig_Uninstall =>
          pm ← section_at m "packages";
          Some (pm !! "uninstall")
      end
  | _ => None
  end.

(** What a configuration holds at a place: [None] when the configuration
    has no struct (or list element) enclosing the place. *)
Definition place_value (d : AlpineData.t) (p : place) : option MultiString :=
  match p with
  | AlpineData_Groups => Some (AlpineData.Groups d)
  | User_Groups i => User.Groups <$> AlpineData.Users d !! i
  | RunCMD_elem i => AlpineData.RunCMD d !! i
  | ResolvConfiguration_NameServers =>
      nw ← AlpineData.Network d;
      ResolvConfiguration.NameServers <$> NetworkSettings.ResolvConf nw
  | ResolvConfiguration_SearchDomains =>
      nw ← AlpineData.Network d;
      ResolvConfiguration.SearchDomains <$> NetworkSettings.ResolvConf nw
  | NTPConfiguration_Pools =>
      nw ← AlpineData.Network d;
      NTPConfiguration.Pools <$> NetworkSettings.NTP nw
  | NTPConfiguration_Servers =>
      nw ← AlpineData.Network d;
      NTPConfiguration.Servers <$> NetworkSettings.NTP nw
  | PackagesConfig_Repositories =>
      PackagesConfig.Repositories <$> AlpineData.Packages d
  | PackagesConfig_Install =>
      PackagesConfig.Install <$> AlpineData.Packages d
  | PackagesConfig_Uninstall =>
      PackagesConfig.Uninstall <$> AlpineData.Packages d
  end.

(** The value a MultiString place must hold for what the document supplies
    there: the empty list for an absent key; for a source that decodes as a
    list, that list; for a source that does not decode as a list and decodes
    as a string, the one-element list of that string. *)
Definition normalizes (src : option node) (ms : MultiString) : Prop :=
  match src with
  | None => ms = []
  | Some n =>
      as_strings n = Some ms ∨
      (as_strings n = None ∧ ∃ s, as_string n = Some s ∧ ms = [s])
  end.

(** The configuration whose only non-zero field is [Groups]. *)
Definition groups_only (ms : MultiString) : AlpineData.t :=
  AlpineData.mk "" "" None None None None ms [] [] [] "" "" false "" []
    None.

(** The five keys of the sshd view. *)
Definition sshd_keys : gset string :=
  {[ "Port"; "ListenAddress"; "PermitRootLogin"; "PermitEmptyPasswords";
     "PasswordAuthentication" ]}.

(** ** Sample inputs *)

(** A callback that fails on both attempts, with two different errors,
    after having written into each pointee. *)
Definition failing_callback : Unmarshal := {|
  into_strings := λ _, (["half"], Some (DecodeError "[]string"));
  into_string := λ _, ("half", Some (DecodeError "string"));
|}.

(** A document that supplies [groups] as a single string, [install] as a
    list, one user without groups, and no [repositories]. *)
Definition sample_doc : node :=
  NMap {[
    "groups" := NStr "wheel";
    "packages" := NMap {[ "install" := NSeq [NStr "vim"; NStr "curl"] ]};
    "users" := NSeq [NMap {[ "name" := NStr "bob" ]}]
  ]}.

(** What [sample_doc] decodes to. *)
Definition sample_config : AlpineData.t := {|
  AlpineData.RootPasswd := "";
  AlpineData.MOTD := "";
  AlpineData.Network := None;
  AlpineData.Packages := Some {|
    PackagesConfig.Repositories := [];
    PackagesConfig.Update := false;
    PackagesConfig.Upgrade := false;
    PackagesConfig.Install := ["vim"; "curl"];
    PackagesConfig.Uninstall := [];
  |};
  AlpineData.DRP := None;
  AlpineData.SSHDConfig := None;
  AlpineData.Groups := ["wheel"];
  AlpineData.Users := [User.mk "bob" "" "" "" false "" [] false [] ""];
  AlpineData.RunCMD := [];
  AlpineData.WriteFiles := [];
  AlpineData.TimeZone := "";
  AlpineData.Keymap := "";
  AlpineData.UnLift := false;
  AlpineData.ScratchDisk := "";
  AlpineData.Disks := [];
  AlpineData.MTA := None;
|}.

(** The document [sshd: {port: 2222}]. *)
Definition sshd_port_doc : node :=
  NMap {[ "sshd" := NMap {[ "port" := NInt 2222 ]} ]}.


(** The document [groups: {a: b}]. *)
Definition mapping_doc : node :=
  NMap {[ "groups" := NMap {[ "a" := NStr "b" ]} ]}.

(** A configuration carrying the default sshd section and nothing else. *)
Definition default_lift : Lift := {| Data := Some InitAlpineData |}.

(** A configuration that agrees with the defaults on the five projected
    sshd fields and differs in the authorized keys and outside the sshd
    section. *)
Definition keyed_lift : Lift := {|
  Data := Some {|
    AlpineData.RootPasswd := "secret";
    AlpineData.MOTD := "hello";
    AlpineData.Network := None;
    AlpineData.Packages := None;
    AlpineData.DRP := None;
    AlpineData.SSHDConfig := Some {|
      SSHD.Port := 22;
      SSHD.ListenAddress := "0.0.0.0";
      SSHD.AuthorizedKeys := ["ssh-ed25519 AAAA bob"];
      SSHD.PermitRootLogin := true;
      SSHD.PermitEmptyPasswords := false;
      SSHD.PasswordAuthentication := false;
    |};
    AlpineData.Groups := ["wheel"];
    AlpineData.Users := [];
    AlpineData.RunCMD := [];
    AlpineData.WriteFiles := [];
    AlpineData.TimeZone := "CET";
    AlpineData.Keymap := "de de";
    AlpineData.UnLift := false;
    AlpineData.ScratchDisk := "";
    AlpineData.Disks := [];
    AlpineData.MTA := None;
  |};
|}.

(** ** The yaml keys of the schema *)

(** The struct types of data.go. *)
Inductive schema :=
| S_AlpineData
| S_User
| S_SSHD
| S_DRProvision
| S_NetworkSettings
| S_ResolvConfiguration
| S_NTPConfiguration
| S_MTAConfiguration
| S_PackagesConfig
| S_WriteFile
| S_Disk.

(** The [yaml:"..."] tags of a struct, in declaration order. *)
Definition yaml_tags (st : schema) : list string :=
  match st with
  | S_AlpineData =>
      ["password"; "motd"; "network"; "packages"; "dr_provision"; "sshd";
       "groups"; "users"; "runcmd"; "write_files"; "timezone"; "keymap";
       "unlift"; "scratch_disk"; "disks"; "mta"]
  | S_User =>
      ["name"; "gecos"; "homedir"; "shell"; "no_create_homedir";
       "primary_group"; "groups"; "system"; "ssh_authorized_keys"; "passwd"]
  | S_SSHD =>
      ["port"; "listen_address"; "authorized_keys"; "permit_root_login";
       "permit_empty_passwords"; "password_authentication"]
  | S_DRProvision =>
      ["install_runner"; "assets_url"; "token"; "endpoint"; "uuid"]
  | S_NetworkSettings =>
      ["hostname"; "interfaces"; "resolv_conf"; "proxy"; "ntp"]
  | S_ResolvConfiguration => ["nameservers"; "search_domains"; "domain"]
  | S_NTPConfiguration => ["pools"; "servers"]
  | S_MTAConfiguration =>
      ["root"; "server"; "use_tls"; "use_starttls"; "user"; "password";
       "authmethod"; "rewrite_domain"; "fromline_override"]
  | S_PackagesConfig =>
      ["repositories"; "update"; "upgrade"; "install"; "uninstall"]
  | S_WriteFile =>
      ["encoding"; "content"; "content-url"; "path"; "owner"; "permissions"]
  | S_Disk => ["device"; "filesystem"; "mountpoint"]
  end.

(** A callback whose list attempt delivers [l]. *)
Definition list_callback (l : list string) : Unmarshal := {|
  into_strings := λ _, (l, None);
  into_string := λ s, (s, Some (DecodeError "string"));
|}.

(** A callback whose list attempt fails and whose string attempt
    delivers [s]. *)
Definition string_callback (s : string) : Unmarshal := {|
  into_strings := λ values, (values, Some (DecodeError "[]string"));
  into_string := λ _, (s, None);
|}.

(** * Properties *)

(** ** The decode result monad *)

Lemma bind_Ok {A B} (r : result A) (f : A → result B) (b : B) :
  r ≫= f = Ok b → ∃ a, r = Ok a ∧ f a = Ok b.
Proof. destruct r as [a|e]; [eauto | discriminate]. Qed.



Lemma fmap_Ok {A B} (g : A → B) (r : result A) (b : B) :
  g <$> r = Ok b → ∃ a, r = Ok a ∧ b = g a.
Proof. destruct r as [a|e]; [intros [= <-]; eauto | discriminate]. Qed.

Lemma mapM_Ok_lookup {A} (dec : node → result A) (ns : list node) (xs : list A) :
  mapM dec ns = Ok xs →
  ∀ i n, ns !! i = Some n → ∃ x, xs !! i = Some x ∧ dec n = Ok x.
Proof.
  revert xs. induction ns as [|n0 ns IH]; intros xs H i n Hi; [done|].
  cbn in H. apply bind_Ok in H as (x0 & Hx0 & H).
  apply bind_Ok in H as (xs' & Hxs' & H). injection H as <-.
  destruct i as [|i]; cbn in Hi.
  - injection Hi as <-. eauto.
  - cbn. eauto.
Qed.


(** ** The hook, for an arbitrary callback *)

Section Hook.
Variable unmarshal : Unmarshal.
Variable ms : MultiString.

Lemma UnmarshalYAML_list values :
  into_strings unmarshal [] = (values, None) →
  UnmarshalYAML ms unmarshal = (values, None).
Proof. unfold UnmarshalYAML. by intros ->. Qed.

Lemma UnmarshalYAML_scalar values e s :
  into_strings unmarshal [] = (values, Some e) →
  into_string unmarshal "" = (s, None) →
  UnmarshalYAML ms unmarshal = ([s], None).
Proof. unfold UnmarshalYAML. by intros -> ->. Qed.

Lemma UnmarshalYAML_both_fail values e1 s e2 :
  into_strings unmarshal [] = (values, Some e1) →
  into_string unmarshal "" = (s, Some e2) →
  UnmarshalYAML ms unmarshal = (ms, Some e2).
Proof. unfold UnmarshalYAML. by intros -> ->. Qed.

Lemma UnmarshalYAML_error_inv ms' e :
  UnmarshalYAML ms unmarshal = (ms', Some e) →
  ms' = ms ∧ ∃ values e1 s,
    into_strings unmarshal [] = (values, Some e1) ∧
    into_string unmarshal "" = (s, Some e).
Proof.
  unfold UnmarshalYAML.
  destruct (into_strings unmarshal []) as [values [e1|]]; [|discriminate].
  destruct (into_string unmarshal "") as [s [e2|]]; [|discriminate].
  intros [= <- <-]. eauto 6.
Qed.
End Hook.

(** ** The shapes of a source *)

Lemma as_strings_NSeq (l : list string) : as_strings (NSeq (NStr <$> l)) = Some l.
Proof.
  cbn. induction l as [|s l IH]; [done|].
  cbn. by rewrite IH.
Qed.



Lemma as_strings_NStr (s : string) : as_strings (NStr s) = None.
Proof. done. Qed.

(** ** Decoding a MultiString field *)

Lemma decode_MultiString_list (l : list string) :
  decode_MultiString (NSeq (NStr <$> l)) = Ok l.
Proof.
  unfold decode_MultiString.
  rewrite (UnmarshalYAML_list _ _ l); [done|].
  cbn [unmarshal_node into_strings]. by rewrite as_strings_NSeq.
Qed.

Lemma decode_MultiString_scalar (s : string) : decode_MultiString (NStr s) = Ok [s].
Proof. done. Qed.

Lemma decode_MultiString_other (n : node) :
  as_strings n = None → as_string n = None →
  decode_MultiString n = Err (DecodeError "string").
Proof.
  intros H1 H2. unfold decode_MultiString.
  rewrite (UnmarshalYAML_both_fail _ _ [] (DecodeError "[]string") ""
             (DecodeError "string")); [done| |].
  - cbn [unmarshal_node into_strings]. by rewrite H1.
  - cbn [unmarshal_node into_string]. by rewrite H2.
Qed.

Lemma decode_MultiString_as_strings (n : node) (l : list string) :
  as_strings n = Some l → decode_MultiString n = Ok l.
Proof.
  intros H. unfold decode_MultiString.
  rewrite (UnmarshalYAML_list _ _ l); [done|].
  cbn [unmarshal_node into_strings]. by rewrite H.
Qed.

Lemma decode_MultiString_as_string (n : node) (s : string) :
  as_strings n = None → as_string n = Some s →
  decode_MultiString n = Ok [s].
Proof.
  intros H1 H2. unfold decode_MultiString.
  rewrite (UnmarshalYAML_scalar _ _ [] (DecodeError "[]string") s); [done| |].
  - cbn [unmarshal_node into_strings]. by rewrite H1.
  - cbn [unmarshal_node into_string]. by rewrite H2.
Qed.

Lemma decode_MultiString_Ok (n : node) (ms : MultiString) :
  decode_MultiString n = Ok ms → normalizes (Some n) ms.
Proof.
  destruct (as_strings n) as [l|] eqn:E1.
  { rewrite (decode_MultiString_as_strings n l E1). intros [= <-]. by left. }
  destruct (as_string n) as [s|] eqn:E2.
  { rewrite (decode_MultiString_as_string n s E1 E2). intros [= <-].
    right. eauto. }
  by rewrite decode_MultiString_other.
Qed.


Lemma decode_groups_only (n : node) (ms : MultiString) :
  decode_MultiString n = Ok ms →
  decode_AlpineData (NMap {[ "groups" := n ]}) = Ok (groups_only ms).
Proof.
  intros H. unfold decode_AlpineData, decode_struct, field.
  rewrite lookup_singleton_eq, H.
  rewrite !lookup_singleton_ne by done. reflexivity.
Qed.

Lemma field_MultiString_Ok (m : gmap string node) (key : string) (ms : MultiString) :
  field m key [] decode_MultiString = Ok ms → normalizes (m !! key) ms.
Proof.
  unfold field. destruct (m !! key) as [n|].
  - apply decode_MultiString_Ok.
  - by intros [= <-].
Qed.


(** ** Decoding a struct, field by field *)

(** Splits a successful struct decode into the successful decodes of its
    fields. *)
Ltac split_decode H :=
  cbn [decode_struct] in H;
  repeat (let a := fresh "a" in
          let Hf := fresh "Hf" in
          apply bind_Ok in H as (a & Hf & H));
  unfold mret, result_ret in H; injection H as <-; cbn.


(** Names the section that the next step of a place lookup goes through. *)
Ltac open_bind H x E :=
  match type of H with
  | (?o ≫= _) = Some _ =>
      destruct o as [x|] eqn:E; [cbn in H | discriminate H]
  end.

Lemma field_ptr_Ok {A} (m m' : gmap string node) (key : string)
    (dec : node → result A) (o : option A) :
  section_at m key = Some m' →
  field m key None (decode_ptr dec) = Ok o →
  ∃ x, o = Some x ∧ dec (NMap m') = Ok x.
Proof.
  unfold section_at, field, decode_ptr.
  destruct (m !! key) as [[]|]; try discriminate.
  intros [= ->] H. apply fmap_Ok in H as (x & ? & ->). eauto.
Qed.


Lemma field_slice_Ok {A} (m : gmap string node) (key : string)
    (dec : node → result A) (ns : list node) (xs : list A) :
  sequence_at m key = Some ns →
  field m key [] (decode_slice dec) = Ok xs →
  mapM dec ns = Ok xs.
Proof.
  unfold sequence_at, field, decode_slice.
  destruct (m !! key) as [[]|]; try discriminate. by intros [= ->].
Qed.


Lemma decode_User_Ok (um : gmap string node) (u : User.t) :
  decode_User (NMap um) = Ok u →
  normalizes (um !! "groups") (User.Groups u).
Proof.
  unfold decode_User. intros H. split_decode H.
  by apply field_MultiString_Ok.
Qed.

Lemma decode_ResolvConfiguration_Ok (rm : gmap string node)
    (r : ResolvConfiguration.t) :
  decode_ResolvConfiguration (NMap rm) = Ok r →
  normalizes (rm !! "nameservers") (ResolvConfiguration.NameServers r) ∧
  normalizes (rm !! "search_domains") (ResolvConfiguration.SearchDomains r).
Proof.
  unfold decode_ResolvConfiguration. intros H. split_decode H.
  split; by apply field_MultiString_Ok.
Qed.

Lemma decode_NTPConfiguration_Ok (tm : gmap string node)
    (t : NTPConfiguration.t) :
  decode_NTPConfiguration (NMap tm) = Ok t →
  normalizes (tm !! "pools") (NTPConfiguration.Pools t) ∧
  normalizes (tm !! "servers") (NTPConfiguration.Servers t).
Proof.
  unfold decode_NTPConfiguration. intros H. split_decode H.
  split; by apply field_MultiString_Ok.
Qed.

Lemma decode_PackagesConfig_Ok (pm : gmap string node)
    (p : PackagesConfig.t) :
  decode_PackagesConfig (NMap pm) = Ok p →
  normalizes (pm !! "repositories") (PackagesConfig.Repositories p) ∧
  normalizes (pm !! "install") (PackagesConfig.Install p) ∧
  normalizes (pm !! "uninstall") (PackagesConfig.Uninstall p).
Proof.
  unfold decode_PackagesConfig. intros H. split_decode H.
  repeat split; by apply field_MultiString_Ok.
Qed.

Lemma decode_NetworkSettings_Ok (nm : gmap string node)
    (nw : NetworkSettings.t) :
  decode_NetworkSettings (NMap nm) = Ok nw →
  field nm "resolv_conf" None (decode_ptr decode_ResolvConfiguration)
    = Ok (NetworkSettings.ResolvConf nw) ∧
  field nm "ntp" None (decode_ptr decode_NTPConfiguration)
    = Ok (NetworkSettings.NTP nw).
Proof.
  unfold decode_NetworkSettings. intros H. split_decode H. done.
Qed.

Lemma decode_AlpineData_Ok (m : gmap string node) (d : AlpineData.t) :
  decode_AlpineData (NMap m) = Ok d →
  field m "network" None (decode_ptr decode_NetworkSettings)
    = Ok (AlpineData.Network d) ∧
  field m "packages" None (decode_ptr decode_PackagesConfig)
    = Ok (AlpineData.Packages d) ∧
  field m "groups" [] decode_MultiString = Ok (AlpineData.Groups d) ∧
  field m "users" [] (decode_slice decode_User) = Ok (AlpineData.Users d) ∧
  field m "runcmd" [] (decode_slice decode_MultiString)
    = Ok (AlpineData.RunCMD d).
Proof.
  unfold decode_AlpineData. intros H. split_decode H. done.
Qed.

(** A successful decode leaves every MultiString place the normal form of
    what the document supplies there. *)
Lemma decode_AlpineData_place (doc : node) (d : AlpineData.t) (p : place)
    (src : option node) :
  decode_AlpineData doc = Ok d →
  place_source doc p = Some src →
  ∃ ms, place_value d p = Some ms ∧ normalizes src ms.
Proof.
  destruct doc as [| | | | |m]; try discriminate.
  intros Hd Hp. apply decode_AlpineData_Ok in Hd as (Hnw & Hpk & Hg & Hu & Hc).
  destruct p; cbn in Hp; cbn [place_value].
  - injection Hp as <-. eauto using field_MultiString_Ok.
  - open_bind Hp us Eus. open_bind Hp un Eun.
    destruct un as [| | | | |um]; try discriminate. injection Hp as <-.
    eapply field_slice_Ok in Hu; [|done].
    eapply mapM_Ok_lookup in Hu as (u & Eu & Hu); [|done].
    rewrite Eu. exists (User.Groups u). split; [done|].
    by apply decode_User_Ok.
  - open_bind Hp cs Ecs. open_bind Hp cn Ecn. injection Hp as <-.
    eapply field_slice_Ok in Hc; [|done].
    eapply mapM_Ok_lookup in Hc as (c & Ec & Hc); [|done].
    rewrite Ec. exists c. split; [done|]. by apply decode_MultiString_Ok.
  - open_bind Hp nm Enm. open_bind Hp rm Erm. injection Hp as <-.
    eapply field_ptr_Ok in Hnw as (nw & -> & Hnw); [|done].
    apply decode_NetworkSettings_Ok in Hnw as [Hr _].
    eapply field_ptr_Ok in Hr as (r & Er & Hr); [|done].
    apply decode_ResolvConfiguration_Ok in Hr as [? _].
    cbn. rewrite Er. eauto.
  - open_bind Hp nm Enm. open_bind Hp rm Erm. injection Hp as <-.
    eapply field_ptr_Ok in Hnw as (nw & -> & Hnw); [|done].
    apply decode_NetworkSettings_Ok in Hnw as [Hr _].
    eapply field_ptr_Ok in Hr as (r & Er & Hr); [|done].
    apply decode_ResolvConfiguration_Ok in Hr as [_ ?].
    cbn. rewrite Er. eauto.
  - open_bind Hp nm Enm. open_bind Hp tm Etm. injection Hp as <-.
    eapply field_ptr_Ok in Hnw as (nw & -> & Hnw); [|done].
    apply decode_NetworkSettings_Ok in Hnw as [_ Ht].
    eapply field_ptr_Ok in Ht as (t & Et & Ht); [|done].
    apply decode_NTPConfiguration_Ok in Ht as [? _].
    cbn. rewrite Et. eauto.
  - open_bind Hp nm Enm. open_bind Hp tm Etm. injection Hp as <-.
    eapply field_ptr_Ok in Hnw as (nw & -> & Hnw); [|done].
    apply decode_NetworkSettings_Ok in Hnw as [_ Ht].
    eapply field_ptr_Ok in Ht as (t & Et & Ht); [|done].
    apply decode_NTPConfiguration_Ok in Ht as [_ ?].
    cbn. rewrite Et. eauto.
  - open_bind Hp pm Epm. injection Hp as <-.
    eapply field_ptr_Ok in Hpk as (pk & -> & Hpk); [|done].
    apply decode_PackagesConfig_Ok in Hpk as (? & ? & ?). cbn. eauto.
  - open_bind Hp pm Epm. injection Hp as <-.
    eapply field_ptr_Ok in Hpk as (pk & -> & Hpk); [|done].
    apply decode_PackagesConfig_Ok in Hpk as (? & ? & ?). cbn. eauto.
  - open_bind Hp pm Epm. injection Hp as <-.
    eapply field_ptr_Ok in Hpk as (pk & -> & Hpk); [|done].
    apply decode_PackagesConfig_Ok in Hpk as (? & ? & ?). cbn. eauto.
Qed.

(** ** A malformed MultiString source fails the enclosing decodes *)

Section Malformed.
Variable n : node.
Hypothesis not_strings : as_strings n = None.
Hypothesis not_string : as_string n = None.








End Malformed.

(** ** Rendering the port *)

Lemma Itoa_decimal (i : Z) :
  Z.of_int <$> NilZero.int_of_string (Itoa i) = Some i.
Proof.
  unfold Itoa. rewrite NilZero.isi.
  - cbn. by rewrite DecimalZ.of_to.
  - destruct i; discriminate || (cbn; intros [= H]);
      by apply DecimalPos.Unsigned.to_uint_nonnil in H.
  - destruct i; discriminate || (cbn; intros [= H]);
      by apply DecimalPos.Unsigned.to_uint_nonnil in H.
Qed.

Lemma getSSHDKVMap_present (l : Lift) (c : SSHD.t) :
  sshd_section l = Some c →
  getSSHDKVMap l = Some
    (<["Port" := Itoa (SSHD.Port c)]>
    (<["ListenAddress" := SSHD.ListenAddress c]>
    (<["PermitRootLogin" := boolToYesNo (SSHD.PermitRootLogin c)]>
    (<["PermitEmptyPasswords" := boolToYesNo (SSHD.PermitEmptyPasswords c)]>
    (<["PasswordAuthentication" :=
         boolToYesNo (SSHD.PasswordAuthentication c)]> ∅))))).
Proof.
  unfold sshd_section, getSSHDKVMap. destruct (Data l) as [d|]; [|done].
  cbn. by intros ->.
Qed.

Lemma getSSHDKVMap_absent (l : Lift) :
  sshd_section l = None → getSSHDKVMap l = None.
Proof.
  unfold sshd_section, getSSHDKVMap. destruct (Data l) as [d|]; [|done].
  cbn. by intros ->.
Qed.

Lemma field_absent {A} (m : gmap string node) (key : string) (zero : A)
    (dec : node → result A) (a : A) :
  m !! key = None → field m key zero dec = Ok a → a = zero.
Proof. unfold field. intros ->. by intros [= <-]. Qed.

(** ** Sample runs *)

Example UnmarshalYAML_empty_list :
  UnmarshalYAML ["old"] (unmarshal_node (NSeq [])) = ([], None).
Proof. reflexivity. Qed.

Example UnmarshalYAML_duplicates :
  UnmarshalYAML [] (unmarshal_node (NSeq [NStr "b"; NStr "a"; NStr "b"]))
    = (["b"; "a"; "b"], None).
Proof. reflexivity. Qed.

Example UnmarshalYAML_mixed_list :
  UnmarshalYAML ["old"] (unmarshal_node (NSeq [NStr "a"; NInt 1; NBool true]))
    = (["a"; "1"; "true"], None).
Proof. reflexivity. Qed.

Example UnmarshalYAML_nested_list :
  UnmarshalYAML ["old"] (unmarshal_node (NSeq [NStr "a"; NSeq [NStr "b"]]))
    = (["old"], Some (DecodeError "string")).
Proof. reflexivity. Qed.

Example UnmarshalYAML_null :
  UnmarshalYAML ["old"] (unmarshal_node NNull) = ([], None).
Proof. reflexivity. Qed.

Example decode_sample_doc : decode_AlpineData sample_doc = Ok sample_config.
Proof. vm_compute. reflexivity. Qed.

Example decode_groups_scalar :
  AlpineData.Groups <$> decode_AlpineData (NMap {[ "groups" := NStr "wheel" ]})
    = Ok ["wheel"].
Proof. vm_compute. reflexivity. Qed.

Example decode_groups_list :
  AlpineData.Groups <$>
    decode_AlpineData
      (NMap {[ "groups" := NSeq [NStr "wheel"; NStr "docker"] ]})
    = Ok ["wheel"; "docker"].
Proof. vm_compute. reflexivity. Qed.

Example decode_empty_doc : decode_AlpineData (NMap ∅) = Ok AlpineData.zero.
Proof. vm_compute. reflexivity. Qed.

Example Itoa_samples : Itoa 22 = "22" ∧ Itoa 0 = "0" ∧ Itoa (-7) = "-7".
Proof. repeat split. Qed.

Example getSSHDKVMap_nil_section :
  getSSHDKVMap {| Data := Some AlpineData.zero |} = None ∧
  getSSHDKVMap {| Data := None |} = None.
Proof. split; reflexivity. Qed.

(** * The claims *)

(** C1. For every decode source: a source that is a list of N strings
    (N >= 0) decodes to exactly that list, order, values and duplicates
    kept, the explicit empty list giving the empty list; a source that is
    a single string S decodes to the one-element list [S]. The last part
    states the same of the hook for an arbitrary callback: the list the
    first attempt delivers is stored as it is, and when the first attempt
    fails and the second delivers S, [S] is stored. *)
Theorem MultiString_decode_list_or_scalar (ms : MultiString) :
  (∀ l : list string,
     UnmarshalYAML ms (unmarshal_node (NSeq (NStr <$> l))) = (l, None)) ∧
  (∀ s : string,
     UnmarshalYAML ms (unmarshal_node (NStr s)) = ([s], None)) ∧
  (∀ unmarshal : Unmarshal,
     (∀ values,
        into_strings unmarshal [] = (values, None) →
        UnmarshalYAML ms unmarshal = (values, None)) ∧
     (∀ values e s,
        into_strings unmarshal [] = (values, Some e) →
        into_string unmarshal "" = (s, None) →
        UnmarshalYAML ms unmarshal = ([s], None))).
Proof.
  split; [|split].
  - intros l. apply UnmarshalYAML_list.
    cbn [unmarshal_node into_strings]. by rewrite as_strings_NSeq.
  - intros s. by apply (UnmarshalYAML_scalar _ _ [] (DecodeError "[]string")).
  - intros unmarshal. split.
    + apply UnmarshalYAML_list.
    + apply UnmarshalYAML_scalar.
Qed.




(** C3. A document that supplies [groups] as a list of strings (of zero,
    one or many elements), as a single string, or not at all decodes, and
    the field then holds that list, the one-element list, or the empty
    list. After any successful decode of a document, every MultiString
    place of the configuration holds a list: the empty list when the
    field's key is absent from the document; when the key is present, the
    list its source decodes to, or, the source not decoding as a list, the
    one-element list of the string it decodes to; in particular the
    supplied list for a list of strings and the one-element list for a
    single string. *)
Theorem decoded_MultiString_fields_are_lists :
  (∀ l : list string,
     decode_AlpineData (NMap {[ "groups" := NSeq (NStr <$> l) ]})
       = Ok (groups_only l)) ∧
  (∀ s : string,
     decode_AlpineData (NMap {[ "groups" := NStr s ]})
       = Ok (groups_only [s])) ∧
  decode_AlpineData (NMap ∅) = Ok (groups_only []) ∧
  (∀ (doc : node) (d : AlpineData.t) (p : place) (src : option node),
     decode_AlpineData doc = Ok d →
     place_source doc p = Some src →
     ∃ ms : list string,
       place_value d p = Some ms ∧
       match src with
       | None => ms = []
       | Some n =>
           (as_strings n = Some ms ∨
            (as_strings n = None ∧ ∃ s, as_string n = Some s ∧ ms = [s])) ∧
           (∀ l, n = NSeq (NStr <$> l) → ms = l) ∧
           (∀ s, n = NStr s → ms = [s])
       end).
Proof.
  split; [|split; [|split]].
  - intros l. apply decode_groups_only, decode_MultiString_list.
  - intros s. apply decode_groups_only, decode_MultiString_scalar.
  - vm_compute. reflexivity.
  - intros doc d p src Hd Hp.
    destruct (decode_AlpineData_place doc d p src Hd Hp) as (ms & Hv & Hn).
    exists ms. split; [done|]. destruct src as [n|]; [|done].
    split; [done|]. split.
    + intros l ->. unfold normalizes in Hn. rewrite as_strings_NSeq in Hn.
      destruct Hn as [[= <-]|[? _]]; [done | discriminate].
    + intros s ->. by destruct Hn as [|(_ & s' & [= <-] & ->)].
Qed.

Lemma decoded_MultiString_fields_are_lists_witness :
  (∃ ms : list string,
     place_value sample_config AlpineData_Groups = Some ms ∧
     (as_strings (NStr "wheel") = Some ms ∨
      (as_strings (NStr "wheel") = None ∧
       ∃ s, as_string (NStr "wheel") = Some s ∧ ms = [s])) ∧
     (∀ l, NStr "wheel" = NSeq (NStr <$> l) → ms = l) ∧
     (∀ s, NStr "wheel" = NStr s → ms = [s])) ∧
  (∃ ms : list string,
     place_value sample_config PackagesConfig_Install = Some ms ∧
     (as_strings (NSeq [NStr "vim"; NStr "curl"]) = Some ms ∨
      (as_strings (NSeq [NStr "vim"; NStr "curl"]) = None ∧
       ∃ s, as_string (NSeq [NStr "vim"; NStr "curl"]) = Some s ∧ ms = [s])) ∧
     (∀ l, NSeq [NStr "vim"; NStr "curl"] = NSeq (NStr <$> l) → ms = l) ∧
     (∀ s, NSeq [NStr "vim"; NStr "curl"] = NStr s → ms = [s])) ∧
  (∃ ms : list string,
     place_value sample_config PackagesConfig_Repositories = Some ms ∧
     ms = []).
Proof.
  pose proof decoded_MultiString_fields_are_lists as (_ & _ & _ & H).
  split; [|split].
  - apply (H sample_doc sample_config AlpineData_Groups
             (Some (NStr "wheel"))); vm_compute; reflexivity.
  - apply (H sample_doc sample_config PackagesConfig_Install
             (Some (NSeq [NStr "vim"; NStr "curl"]))); vm_compute; reflexivity.
  - apply (H sample_doc sample_config PackagesConfig_Repositories None);
      vm_compute; reflexivity.
Defined.

(** C4. InitAlpineData always returns the same instance: UnLift true,
    timezone UTC, keymap "us us", a network section whose hostname is the
    placeholder "alpine", an sshd section with port 22, listen address
    0.0.0.0, root login permitted, empty passwords forbidden and password
    authentication disabled, a provisioning agent section with the install
    flag set, a packages section with the two default repository URLs; every
    other field is at its zero value. The function takes no argument and has
    no error result. *)
Theorem InitAlpineData_defaults :
  AlpineData.UnLift InitAlpineData = true ∧
  AlpineData.TimeZone InitAlpineData = "UTC" ∧
  AlpineData.Keymap InitAlpineData = "us us" ∧
  AlpineData.Network InitAlpineData
    = Some (NetworkSettings.mk "alpine" "" None "" None) ∧
  AlpineData.SSHDConfig InitAlpineData
    = Some (SSHD.mk 22 "0.0.0.0" [] true false false) ∧
  AlpineData.DRP InitAlpineData = Some (DRProvision.mk true "" "" "" "") ∧
  AlpineData.Packages InitAlpineData
    = Some (PackagesConfig.mk
              ["http://dl-cdn.alpinelinux.org/alpine/v3.8/main";
               "http://dl-cdn.alpinelinux.org/alpine/v3.8/community"]
              false false [] []) ∧
  AlpineData.RootPasswd InitAlpineData = "" ∧
  AlpineData.MOTD InitAlpineData = "" ∧
  AlpineData.Groups InitAlpineData = [] ∧
  AlpineData.Users InitAlpineData = [] ∧
  AlpineData.RunCMD InitAlpineData = [] ∧
  AlpineData.WriteFiles InitAlpineData = [] ∧
  AlpineData.ScratchDisk InitAlpineData = "" ∧
  AlpineData.Disks InitAlpineData = [] ∧
  AlpineData.MTA InitAlpineData = None.
Proof. repeat split. Qed.

(** C5. For every configuration with an sshd section, getSSHDKVMap returns
    a map whose keys are exactly Port, ListenAddress, PermitRootLogin,
    PermitEmptyPasswords and PasswordAuthentication; the three booleans are
    rendered as "yes" for true and "no" for false, the listen address is
    copied, and the port is rendered as its decimal string (reading the
    rendering back in base 10 gives the port). *)
Theorem getSSHDKVMap_entries (l : Lift) (c : SSHD.t) :
  sshd_section l = Some c →
  ∃ kv : gmap string string,
    getSSHDKVMap l = Some kv ∧
    dom kv = sshd_keys ∧
    kv !! "Port" = Some (Itoa (SSHD.Port c)) ∧
    Z.of_int <$> NilZero.int_of_string (Itoa (SSHD.Port c))
      = Some (SSHD.Port c) ∧
    kv !! "ListenAddress" = Some (SSHD.ListenAddress c) ∧
    kv !! "PermitRootLogin"
      = Some (if SSHD.PermitRootLogin c then "yes" else "no") ∧
    kv !! "PermitEmptyPasswords"
      = Some (if SSHD.PermitEmptyPasswords c then "yes" else "no") ∧
    kv !! "PasswordAuthentication"
      = Some (if SSHD.PasswordAuthentication c then "yes" else "no").
Proof.
  intros H. eexists. split; [by apply getSSHDKVMap_present|].
  split; [|split; [|split]].
  - rewrite !dom_insert_L, dom_empty_L. unfold sshd_keys. set_solver.
  - done.
  - apply Itoa_decimal.
  - repeat split.
Qed.

Lemma getSSHDKVMap_entries_witness :
  ∃ kv : gmap string string,
    getSSHDKVMap keyed_lift = Some kv ∧
    dom kv = sshd_keys ∧
    kv !! "Port" = Some "22" ∧
    Z.of_int <$> NilZero.int_of_string "22" = Some 22 ∧
    kv !! "ListenAddress" = Some "0.0.0.0" ∧
    kv !! "PermitRootLogin" = Some "yes" ∧
    kv !! "PermitEmptyPasswords" = Some "no" ∧
    kv !! "PasswordAuthentication" = Some "no".
Proof.
  apply (getSSHDKVMap_entries keyed_lift
           (SSHD.mk 22 "0.0.0.0" ["ssh-ed25519 AAAA bob"] true false false)).
  reflexivity.
Defined.

(** C6. The sshd section of the defaults, passed through getSSHDKVMap,
    gives exactly the map Port 22, ListenAddress 0.0.0.0, PermitRootLogin
    yes, PermitEmptyPasswords no, PasswordAuthentication no. *)
Theorem getSSHDKVMap_of_defaults :
  getSSHDKVMap {| Data := Some InitAlpineData |} = Some {[
    "Port" := "22";
    "ListenAddress" := "0.0.0.0";
    "PermitRootLogin" := "yes";
    "PermitEmptyPasswords" := "no";
    "PasswordAuthentication" := "no"
  ]}.
Proof. vm_compute. reflexivity. Qed.

(** C7. Decoding the document [sshd: {port: 2222}] gives an sshd section
    with port 2222 and every other field at its zero value, none of the
    defaults of InitAlpineData; in general a successful decode of an sshd
    section leaves each field whose key the document does not supply at
    its zero value. *)
Theorem decode_sshd_port_only :
  decode_AlpineData sshd_port_doc
    = Ok (AlpineData.mk "" "" None None None
            (Some (SSHD.mk 2222 "" [] false false false))
            [] [] [] [] "" "" false "" [] None) ∧
  (∀ (m : gmap string node) (c : SSHD.t),
     decode_SSHD (NMap m) = Ok c →
     (m !! "port" = None → SSHD.Port c = 0) ∧
     (m !! "listen_address" = None → SSHD.ListenAddress c = "") ∧
     (m !! "authorized_keys" = None → SSHD.AuthorizedKeys c = []) ∧
     (m !! "permit_root_login" = None → SSHD.PermitRootLogin c = false) ∧
     (m !! "permit_empty_passwords" = None →
        SSHD.PermitEmptyPasswords c = false) ∧
     (m !! "password_authentication" = None →
        SSHD.PasswordAuthentication c = false)).
Proof.
  split; [vm_compute; reflexivity|].
  intros m c H. unfold decode_SSHD in H. split_decode H.
  repeat split; intros Hk; eapply field_absent; eassumption.
Qed.

(** C8. When the sshd section is present, getSSHDKVMap returns a map: it
    has no failing branch, and as a function of the configuration it is
    deterministic. *)
Theorem getSSHDKVMap_total_when_present (l : Lift) (c : SSHD.t) :
  sshd_section l = Some c →
  ∃ kv : gmap string string, getSSHDKVMap l = Some kv.
Proof. intros H. eexists. by apply getSSHDKVMap_present. Qed.

Lemma getSSHDKVMap_total_when_present_witness :
  ∃ kv : gmap string string, getSSHDKVMap default_lift = Some kv.
Proof.
  apply (getSSHDKVMap_total_when_present default_lift
           (SSHD.mk 22 "0.0.0.0" [] true false false)).
  reflexivity.
Defined.

(** C9. When both attempts of the callback fail, UnmarshalYAML returns the
    error of the second attempt and leaves the receiver as it was; and
    whenever UnmarshalYAML returns an error the receiver is unchanged, both
    attempts having failed and the error being that of the second. *)
Theorem UnmarshalYAML_failure_atomic (unmarshal : Unmarshal)
    (ms : MultiString) :
  (∀ values e1 s e2,
     into_strings unmarshal [] = (values, Some e1) →
     into_string unmarshal "" = (s, Some e2) →
     UnmarshalYAML ms unmarshal = (ms, Some e2)) ∧
  (∀ ms' e,
     UnmarshalYAML ms unmarshal = (ms', Some e) →
     ms' = ms ∧
     ∃ values e1 s,
       into_strings unmarshal [] = (values, Some e1) ∧
       into_string unmarshal "" = (s, Some e)).
Proof.
  split.
  - apply UnmarshalYAML_both_fail.
  - apply UnmarshalYAML_error_inv.
Qed.

Lemma UnmarshalYAML_failure_atomic_witness :
  UnmarshalYAML ["wheel"; "docker"] failing_callback
    = (["wheel"; "docker"], Some (DecodeError "string")).
Proof.
  apply (proj1 (UnmarshalYAML_failure_atomic failing_callback
                  ["wheel"; "docker"])
           ["half"] (DecodeError "[]string") "half" (DecodeError "string"));
    reflexivity.
Defined.

(** C10. Two configurations whose sshd sections agree on Port,
    ListenAddress, PermitRootLogin, PermitEmptyPasswords and
    PasswordAuthentication have equal getSSHDKVMap results: the view
    depends neither on AuthorizedKeys nor on anything outside the sshd
    section. *)
Theorem getSSHDKVMap_depends_on_five_fields (l1 l2 : Lift) (c1 c2 : SSHD.t) :
  sshd_section l1 = Some c1 →
  sshd_section l2 = Some c2 →
  SSHD.Port c1 = SSHD.Port c2 →
  SSHD.ListenAddress c1 = SSHD.ListenAddress c2 →
  SSHD.PermitRootLogin c1 = SSHD.PermitRootLogin c2 →
  SSHD.PermitEmptyPasswords c1 = SSHD.PermitEmptyPasswords c2 →
  SSHD.PasswordAuthentication c1 = SSHD.PasswordAuthentication c2 →
  getSSHDKVMap l1 = getSSHDKVMap l2.
Proof.
  intros H1 H2 Hp Ha Hr He Hw.
  rewrite (getSSHDKVMap_present l1 c1 H1), (getSSHDKVMap_present l2 c2 H2).
  by rewrite Hp, Ha, Hr, He, Hw.
Qed.

Lemma getSSHDKVMap_depends_on_five_fields_witness :
  getSSHDKVMap default_lift = getSSHDKVMap keyed_lift.
Proof.
  apply (getSSHDKVMap_depends_on_five_fields default_lift keyed_lift
           (SSHD.mk 22 "0.0.0.0" [] true false false)
           (SSHD.mk 22 "0.0.0.0" ["ssh-ed25519 AAAA bob"] true false false));
    reflexivity.
Defined.

(** * Further properties of the code *)

Lemma Itoa_inj (i j : Z) : Itoa i = Itoa j → i = j.
Proof.
  intros H. pose proof (Itoa_decimal i) as Hi.
  rewrite H, Itoa_decimal in Hi. by injection Hi.
Qed.

Lemma boolToYesNo_inj (a b : bool) : boolToYesNo a = boolToYesNo b → a = b.
Proof. by destruct a, b. Qed.

(** X1. boolToYesNo returns "yes" exactly for true and "no" exactly for
    false, never another token, so the two renderings are told apart. *)
Theorem boolToYesNo_tokens (a b : bool) :
  (boolToYesNo a = "yes" ↔ a = true) ∧
  (boolToYesNo a = "no" ↔ a = false) ∧
  (boolToYesNo a = "yes" ∨ boolToYesNo a = "no") ∧
  (boolToYesNo a = boolToYesNo b ↔ a = b).
Proof.
  destruct a, b; repeat split; try done; by (left + right).
Qed.

(** X2. getSSHDKVMap loses nothing of the five projected fields: two
    configurations with an sshd section whose views are equal agree on
    Port, ListenAddress, PermitRootLogin, PermitEmptyPasswords and
    PasswordAuthentication. *)
Theorem getSSHDKVMap_injective (l1 l2 : Lift) (c1 c2 : SSHD.t) :
  sshd_section l1 = Some c1 →
  sshd_section l2 = Some c2 →
  getSSHDKVMap l1 = getSSHDKVMap l2 →
  SSHD.Port c1 = SSHD.Port c2 ∧
  SSHD.ListenAddress c1 = SSHD.ListenAddress c2 ∧
  SSHD.PermitRootLogin c1 = SSHD.PermitRootLogin c2 ∧
  SSHD.PermitEmptyPasswords c1 = SSHD.PermitEmptyPasswords c2 ∧
  SSHD.PasswordAuthentication c1 = SSHD.PasswordAuthentication c2.
Proof.
  intros H1 H2.
  rewrite (getSSHDKVMap_present l1 c1 H1), (getSSHDKVMap_present l2 c2 H2).
  intros H. apply (inj Some) in H.
  pose proof (f_equal (λ kv : gmap string string, kv !! "Port") H) as Hp.
  pose proof (f_equal (λ kv : gmap string string,
                         kv !! "ListenAddress") H) as Ha.
  pose proof (f_equal (λ kv : gmap string string,
                         kv !! "PermitRootLogin") H) as Hr.
  pose proof (f_equal (λ kv : gmap string string,
                         kv !! "PermitEmptyPasswords") H) as He.
  pose proof (f_equal (λ kv : gmap string string,
                         kv !! "PasswordAuthentication") H) as Hw.
  cbv beta in Hp, Ha, Hr, He, Hw.
  change (Some (Itoa (SSHD.Port c1)) = Some (Itoa (SSHD.Port c2))) in Hp.
  change (Some (SSHD.ListenAddress c1) = Some (SSHD.ListenAddress c2)) in Ha.
  change (Some (boolToYesNo (SSHD.PermitRootLogin c1))
          = Some (boolToYesNo (SSHD.PermitRootLogin c2))) in Hr.
  change (Some (boolToYesNo (SSHD.PermitEmptyPasswords c1))
          = Some (boolToYesNo (SSHD.PermitEmptyPasswords c2))) in He.
  change (Some (boolToYesNo (SSHD.PasswordAuthentication c1))
          = Some (boolToYesNo (SSHD.PasswordAuthentication c2))) in Hw.
  injection Hp as Hp. injection Ha as Ha. injection Hr as Hr.
  injection He as He. injection Hw as Hw.
  repeat split; auto using Itoa_inj, boolToYesNo_inj.
Qed.

Lemma getSSHDKVMap_injective_witness :
  22 = 22 ∧ "0.0.0.0" = "0.0.0.0" ∧ true = true ∧ false = false ∧
  false = false.
Proof.
  apply (getSSHDKVMap_injective default_lift keyed_lift
           (SSHD.mk 22 "0.0.0.0" [] true false false)
           (SSHD.mk 22 "0.0.0.0" ["ssh-ed25519 AAAA bob"] true false false));
    vm_compute; reflexivity.
Defined.

(** X4. A successful UnmarshalYAML replaces the receiver: the list it
    stores does not depend on what the receiver held before, so nothing is
    appended to or merged with earlier content. *)
Theorem UnmarshalYAML_success_overwrites (unmarshal : Unmarshal)
    (ms ms' r : MultiString) :
  UnmarshalYAML ms unmarshal = (r, None) →
  UnmarshalYAML ms' unmarshal = (r, None).
Proof.
  unfold UnmarshalYAML.
  destruct (into_strings unmarshal []) as [values [e1|]].
  - destruct (into_string unmarshal "") as [s [e2|]]; [discriminate|done].
  - done.
Qed.

Lemma UnmarshalYAML_success_overwrites_witness :
  UnmarshalYAML [] (string_callback "wheel") = (["wheel"], None).
Proof.
  apply (UnmarshalYAML_success_overwrites (string_callback "wheel")
           ["adm"; "docker"] [] ["wheel"]).
  reflexivity.
Defined.

(** X6. A successful UnmarshalYAML stores nothing but what the callback
    delivered: either the list of the list attempt, or, the list attempt
    having failed, the one-element list of the string of the string
    attempt. The string attempt stores one element also for the empty
    string, so the empty list is left only when the list attempt itself
    delivered the empty list. *)
Theorem UnmarshalYAML_success_inv (unmarshal : Unmarshal)
    (ms r : MultiString) :
  UnmarshalYAML ms unmarshal = (r, None) →
  (into_strings unmarshal [] = (r, None) ∨
   ∃ values e s,
     into_strings unmarshal [] = (values, Some e) ∧
     into_string unmarshal "" = (s, None) ∧
     r = [s]) ∧
  (r = [] → into_strings unmarshal [] = ([], None)).
Proof.
  unfold UnmarshalYAML.
  destruct (into_strings unmarshal []) as [values [e1|]].
  - destruct (into_string unmarshal "") as [s [e2|]]; [discriminate|].
    intros [= <-]. split; [|discriminate]. right. eauto 6.
  - intros [= ->]. split; [by left | by intros ->].
Qed.

Lemma UnmarshalYAML_success_inv_witness :
  (into_strings (string_callback "") [] = ([""], None) ∨
   ∃ values e s,
     into_strings (string_callback "") [] = (values, Some e) ∧
     into_string (string_callback "") "" = (s, None) ∧
     [""] = [s]) ∧
  ([""] = [] → into_strings (string_callback "") [] = ([], None)).
Proof.
  apply (UnmarshalYAML_success_inv (string_callback "") ["adm"] [""]).
  reflexivity.
Defined.

(** X7. Within each struct of the schema the yaml keys are pairwise
    distinct: no two fields of a struct are filled from the same key. *)
Theorem yaml_tags_distinct (st : schema) : NoDup (yaml_tags st).
Proof.
  destruct st; apply (bool_decide_unpack _); vm_compute; reflexivity.
Qed.
